(** * Reddit persona analyser: cache, aggregation, digest and session model

    A shallow embedding of the data acquisition / caching / context-assembly
    pipeline of the persona analyser scripts:

    - [reddit-analyzer-claude.py]        (module [AnalyzerClaude])
    - [persona.py]                       (module [Persona])
    - [reddit-analyser-complete-claude.py] (module [CompleteClaude])
    - [reddit-analyser-complete-groq.py] (module [CompleteGroq])

    Python values are modelled by [pyval]; the file system, the console and
    the calls to the remote services are threaded through a state-and-exception
    monad [M]; the Python library functions the scripts call ([json],
    [datetime]) are the fields of the class [PyLib]. *)

From Stdlib Require Import ZArith Lia Floats Ascii DecimalString Permutation Sorted.
From stdpp Require Import gmap strings list.

Set Default Proof Using "Type".

(** ** Python strings, slices and sorting *)

(** [str(n)] for an [int]. *)
Definition str_of_Z (z : Z) : string := NilZero.string_of_int (Z.to_int z).

(** [s[:n]] for [n >= 0]. *)
Fixpoint str_take (n : nat) (s : string) : string :=
  match n, s with
  | S n', String c s' => String c (str_take n' s')
  | _, _ => EmptyString
  end.

Definition lower_ascii (c : ascii) : ascii :=
  let n := nat_of_ascii c in
  if (65 <=? n)%nat && (n <=? 90)%nat then ascii_of_nat (n + 32) else c.

(** [s.lower()] (on the ASCII letters). *)
Fixpoint lower (s : string) : string :=
  match s with
  | EmptyString => EmptyString
  | String c s' => String (lower_ascii c) (lower s')
  end.

(** The newline character. *)
Definition nl : string := String (ascii_of_nat 10) EmptyString.

(** [sep.join(parts)]. *)
Definition join (sep : string) (parts : list string) : string :=
  String.concat sep parts.



(** [l[:stop]]: a negative [stop] counts from the end. *)
Definition slice_to {A} (stop : Z) (l : list A) : list A :=
  if (stop <? 0)%Z
  then take (Z.to_nat (Z.max 0 (Z.of_nat (length l) + stop))) l
  else take (Z.to_nat stop) l.

(** [l[start:]]: a negative [start] counts from the end. *)
Definition slice_from {A} (start : Z) (l : list A) : list A :=
  if (start <? 0)%Z
  then drop (Z.to_nat (Z.max 0 (Z.of_nat (length l) + start))) l
  else drop (Z.to_nat start) l.

(** [sorted(l, key=key, reverse=True)]: descending by key; Python's sort is
    stable and [reverse=True] keeps the original order of equal keys.  An
    element is put in front of the first element whose key is not larger than
    its own, so it stays in front of the equal keys that followed it. *)
Fixpoint insert_desc {A} (key : A -> Z) (x : A) (l : list A) : list A :=
  match l with
  | [] => [x]
  | y :: l' =>
      if (key y <=? key x)%Z then x :: y :: l' else y :: insert_desc key x l'
  end.

Fixpoint sorted_desc {A} (key : A -> Z) (l : list A) : list A :=
  match l with
  | [] => []
  | x :: l' => insert_desc key x (sorted_desc key l')
  end.


(** [os.path.join(a, b)] on POSIX: an absolute [b] discards [a]. *)
Definition os_path_join (a b : string) : string :=
  match b with
  | String "/" _ => b
  | _ => a +:+ "/" +:+ b
  end.

(** ** Python values *)

(** The values [json] reads and writes: [None], [bool], [int], [float],
    [str], [list] and [dict] with string keys.  A [dict] keeps its insertion
    order, so it is an association list. *)
#[warnings="-register-all"]
Inductive pyval :=
| PNone
| PBool (b : bool)
| PInt (n : Z)
| PFloat (f : float)
| PStr (s : string)
| PList (l : list pyval)
| PDict (d : list (string * pyval)).

(** Truth value of an object, as tested by [if x:]. *)
Definition truthy (v : pyval) : bool :=
  match v with
  | PNone => false
  | PBool b => b
  | PInt n => negb (n =? 0)%Z
  | PFloat f => negb (PrimFloat.eqb f 0%float)
  | PStr s => negb (String.eqb s "")
  | PList l => match l with [] => false | _ => true end
  | PDict d => match d with [] => false | _ => true end
  end.

Fixpoint assoc {V} (k : string) (d : list (string * V)) : option V :=
  match d with
  | [] => None
  | (k', v) :: d' => if String.eqb k k' then Some v else assoc k d'
  end.

(** ** Exceptions *)

Inductive exn :=
| JSONDecodeError
| KeyError (key : string)
| TypeError
| ValueError
| RemoteError (msg : string)        (* raised by the PRAW client *)
| RequestException (msg : string)   (* raised by [requests] *)
| APIError (msg : string).          (* raised by the completion client *)

(** [str(e)], as interpolated in the error messages; the texts of the
    library's own exceptions are abridged. *)
Definition exn_str (e : exn) : string :=
  match e with
  | JSONDecodeError => "Expecting value"
  | KeyError k => "'" +:+ k +:+ "'"
  | TypeError => "unsupported operand"
  | ValueError => "Invalid isoformat string"
  | RemoteError m => m
  | RequestException m => m
  | APIError m => m
  end.

Inductive result (A : Type) :=
| Ok (a : A)
| Raise (e : exn).
Arguments Ok {A} a.
Arguments Raise {A} e.

(** ** The world: files, console and remote calls *)

Inductive event :=
| Print (msg : string)
| RemoteProbe (user : string)          (* [redditor.created_utc] *)
| RemoteSubmissions (user : string)    (* [redditor.submissions.new] *)
| RemoteComments (user : string)       (* [redditor.comments.new] *)
| HttpGet (url : string)               (* [requests.get] *)
| Completion (user question : string). (* the chat endpoint *)

Record world := World {
  files : gmap string string;
  trace : list event
}.

Definition is_remote (ev : event) : bool :=
  match ev with
  | Print _ => false
  | Completion _ _ => false
  | _ => true
  end.

(** The state-and-exception monad: an exception keeps the effects made before
    it was raised. *)
Definition M (A : Type) : Type := world -> result A * world.

Definition ret {A} (a : A) : M A := fun w => (Ok a, w).
Definition raise {A} (e : exn) : M A := fun w => (Raise e, w).
Definition bind {A B} (m : M A) (k : A -> M B) : M B :=
  fun w =>
    match m w with
    | (Ok a, w') => k a w'
    | (Raise e, w') => (Raise e, w')
    end.

Notation "'let*' x ':=' m 'in' k" := (bind m (fun x => k))
  (at level 10, x pattern, m at level 100, k at level 200).
Notation "m ';;' k" := (bind m (fun _ => k))
  (at level 100, k at level 200, right associativity).

(** [try: m  except Exception as e: h e]. *)
Definition try_except {A} (m : M A) (h : exn -> M A) : M A :=
  fun w =>
    match m w with
    | (Ok a, w') => (Ok a, w')
    | (Raise e, w') => h e w'
    end.

(** [try: m  except requests.RequestException as e: h e]. *)
Definition try_except_request {A} (m : M A) (h : exn -> M A) : M A :=
  fun w =>
    match m w with
    | (Raise (RequestException msg), w') => h (RequestException msg) w'
    | r => r
    end.

Definition lift {A} (r : result A) : M A := fun w => (r, w).

Definition emit (ev : event) : M unit :=
  fun w => (Ok tt, World (files w) (trace w ++ [ev])).

(** [console.print(msg)]. *)
Definition console_print (msg : string) : M unit := emit (Print msg).

Fixpoint for_each {A} (l : list A) (body : A -> M unit) : M unit :=
  match l with
  | [] => ret tt
  | x :: l' => body x ;; for_each l' body
  end.

(** [m] returns in every world, with a value that satisfies [P]. *)
Definition yields {A} (P : A -> Prop) (m : M A) : Prop :=
  forall w, exists a w', m w = (Ok a, w') /\ P a.

(** [m] may raise; what it returns satisfies [P]. *)
Definition may_yield {A} (P : A -> Prop) (m : M A) : Prop :=
  forall w, match m w with
            | (Ok a, _) => P a
            | (Raise _, _) => True
            end.

(** *** Files *)

Definition os_path_exists (path : string) : M bool :=
  fun w => (Ok (bool_decide (is_Some (files w !! path))), w).

(** [open(path, 'r').read()], called on an existing path. *)
Definition read_text (path : string) : M string :=
  fun w => (Ok (default EmptyString (files w !! path)), w).

(** [open(path, 'w')]: the file is created or truncated at once.  The file
    system is a flat map from paths to texts: the directories [reddit_cache]
    and [chat_history] exist (the constructor creates them) and opening a file
    in them succeeds. *)
Definition open_w (path : string) : M unit :=
  fun w => (Ok tt, World (<[path := EmptyString]> (files w)) (trace w)).

(** Writing [text] to the open file and closing it. *)
Definition write_text (path text : string) : M unit :=
  fun w =>
    (Ok tt,
     World (<[path := default EmptyString (files w !! path) +:+ text]> (files w))
           (trace w)).


(** ** The Python library *)

(** Timestamps ([datetime]) are microseconds since the epoch.  [now - t] is a
    [timedelta]; its [days] attribute is the floor of the age in days. *)
Definition MICROSECONDS_PER_DAY : Z := 86400000000.

Definition timedelta_days (delta : Z) : Z := (delta / MICROSECONDS_PER_DAY)%Z.

Class PyLib := {
  (** the text [json.dump(v, f, indent=2)] writes *)
  json_dumps : pyval -> string;
  (** [json.load]; [None] stands for [JSONDecodeError] *)
  json_loads : string -> option pyval;
  (** [datetime.isoformat] *)
  isoformat : Z -> string;
  (** [datetime.fromisoformat]; [None] stands for [ValueError] *)
  fromisoformat : string -> option Z;
  (** [datetime.fromtimestamp(t).strftime('%Y-%m-%d')] *)
  strftime_date : float -> string
}.

(** ** The cache store and the history store

    [get_cache_path], [get_history_path], [load_cached_data], [save_to_cache],
    [load_chat_history] and [save_chat_history] are the same in every script. *)

Definition cache_dir : string := "reddit_cache".
Definition history_dir : string := "chat_history".

Definition get_cache_path (username : string) : string :=
  os_path_join cache_dir (username +:+ ".json").

Definition get_history_path (username : string) : string :=
  os_path_join history_dir (username +:+ "_history.json").

(** One question/answer exchange; [timestamp] is the ISO text the session
    stored. *)
Record ConversationTurn := Turn {
  timestamp : string;
  question : string;
  answer : string
}.

Definition turn_to_py (t : ConversationTurn) : pyval :=
  PDict [("timestamp", PStr (timestamp t));
         ("question", PStr (question t));
         ("answer", PStr (answer t))].

Definition turn_of_py (v : pyval) : option ConversationTurn :=
  match v with
  | PDict d =>
      match assoc "timestamp" d, assoc "question" d, assoc "answer" d with
      | Some (PStr t), Some (PStr q), Some (PStr a) => Some (Turn t q a)
      | _, _, _ => None
      end
  | _ => None
  end.

Fixpoint turns_of_list (l : list pyval) : option (list ConversationTurn) :=
  match l with
  | [] => Some []
  | v :: l' =>
      match turn_of_py v, turns_of_list l' with
      | Some t, Some ts => Some (t :: ts)
      | _, _ => None
      end
  end.

Definition turns_of_py (v : pyval) : option (list ConversationTurn) :=
  match v with
  | PList l => turns_of_list l
  | _ => None
  end.

(** [d[k]] on a loaded value. *)
Definition getitem (v : pyval) (k : string) : result pyval :=
  match v with
  | PDict d =>
      match assoc k d with
      | Some x => Ok x
      | None => Raise (KeyError k)
      end
  | _ => Raise TypeError
  end.

Section Store.
Context `{PyLib}.

(** [json.load(f)]. *)
Definition json_load (path : string) : M pyval :=
  let* text := read_text path in
  match json_loads text with
  | Some v => ret v
  | None => raise JSONDecodeError
  end.

(** [json.dump(data, f, indent=2)] on the file just opened. *)
Definition json_dump (data : pyval) (path : string) : M unit :=
  write_text path (json_dumps data).

(** A missing file and a file holding [null] both give [None]. *)
Definition load_cached_data (username : string) : M pyval :=
  let cache_path := get_cache_path username in
  let* found := os_path_exists cache_path in
  if found then json_load cache_path else ret PNone.

Definition save_to_cache (username : string) (data : pyval) : M unit :=
  let cache_path := get_cache_path username in
  open_w cache_path ;;
  json_dump data cache_path.

(** The session keeps the history as a list of turns; a file that is JSON
    but not a list of turns fails in the script at its first use, here at
    the load. *)
Definition load_chat_history (username : string) : M (list ConversationTurn) :=
  let history_path := get_history_path username in
  let* found := os_path_exists history_path in
  if found then
    let* v := json_load history_path in
    match turns_of_py v with
    | Some h => ret h
    | None => raise TypeError
    end
  else ret [].

Definition save_chat_history (username : string)
    (history : list ConversationTurn) : M unit :=
  let history_path := get_history_path username in
  open_w history_path ;;
  json_dump (PList (map turn_to_py history)) history_path.

(** [datetime.fromisoformat(v)]. *)
Definition datetime_fromisoformat (v : pyval) : result Z :=
  match v with
  | PStr s =>
      match fromisoformat s with
      | Some t => Ok t
      | None => Raise ValueError
      end
  | _ => Raise TypeError
  end.
End Store.

(** ** Conversation context *)

(** The policy constant of [chat_history[-3:]]. *)
Definition CONTEXT_TURNS : Z := 3.

(** [chat_history[-3:]]: the turns whose questions and answers go into the
    next prompt. *)
Definition context_window (chat_history : list ConversationTurn)
  : list ConversationTurn :=
  slice_from (- CONTEXT_TURNS) chat_history.

(** The text of the turns: [Previous Q: ...\nPrevious A: ...\n] joined by
    newlines. *)
Definition history_context (chat_history : list ConversationTurn) : string :=
  join nl
    (map (fun entry =>
            "Previous Q: " +:+ question entry +:+ nl +:+
            "Previous A: " +:+ answer entry +:+ nl)
         (context_window chat_history)).

(** ** Aggregation of the subreddit activity *)

(** [d[k] = d.get(k, 0) + 1] on an insertion-ordered [dict]: a known key keeps
    its place, a new key goes last. *)
Fixpoint dict_incr (k : string) (d : list (string * Z)) : list (string * Z) :=
  match d with
  | [] => [(k, 1%Z)]
  | (k', c) :: d' =>
      if String.eqb k k' then (k', (c + 1)%Z) :: d'
      else (k', c) :: dict_incr k d'
  end.

(** The counting loop, over the [subreddit] fields of the items. *)
Definition count_into (d : list (string * Z)) (labels : list string)
  : list (string * Z) :=
  foldl (fun d subreddit => dict_incr subreddit d) d labels.

Definition subreddit_activity (labels : list string) : list (string * Z) :=
  count_into [] labels.

(** [dict(sorted(activity.items(), key=lambda x: x[1], reverse=True)[:k])]. *)
Definition top_subreddits_of (k : nat) (activity : list (string * Z))
  : list (string * Z) :=
  take k (sorted_desc snd activity).



Definition sum_counts (d : list (string * Z)) : Z :=
  foldr (fun kc acc => (snd kc + acc)%Z) 0%Z d.



(** The consistency of a statistics block with the record lists it was
    computed from. *)
Definition statistics_consistent (n_submissions n_comments : nat)
    (total_submissions total_comments : Z) (top : list (string * Z)) : Prop :=
  total_submissions = Z.of_nat n_submissions /\
  total_comments = Z.of_nat n_comments /\
  Forall (fun kc => (1 <= snd kc)%Z) top /\
  (sum_counts top <= total_submissions + total_comments)%Z.

(** ** The PRAW client, as the scripts read it *)

Module Praw.

(** The attributes the scripts read from a submission. *)
Record Submission := {
  title : string;
  selftext : string;
  subreddit : string;
  score : Z;
  upvote_ratio : float;
  created_utc : float;
  permalink : string;
  num_comments : Z;
  url : string;
  is_self : bool;
  link_flair_text : option string;
  over_18 : bool
}.

(** The attributes the scripts read from a comment. *)
Record Comment := {
  body : string;
  c_subreddit : string;
  c_score : Z;
  c_created_utc : float;
  c_permalink : string;
  is_submitter : bool;
  distinguished : option string;
  parent_id : string;
  link_id : string
}.

(** A paginated listing as the consumer sees it: the items delivered, then
    exhaustion ([None]) or an exception of the client. *)
Record listing (A : Type) := Listing {
  delivered : list A;
  failure : option string
}.
Arguments Listing {A} _ _.
Arguments delivered {A} _.
Arguments failure {A} _.

(** [self.reddit.redditor(username)]: the existence probe
    [redditor.created_utc] and the two listings. *)
Record redditor := Redditor {
  probe_failure : option string;
  submissions_new : listing Submission;
  comments_new : listing Comment
}.
End Praw.

(** ** reddit-analyzer-claude.py *)

Module AnalyzerClaude.
Import Praw.

Record Statistics := {
  total_submissions : Z;
  total_comments : Z;
  top_subreddits : list (string * Z)
}.

(** The [data] dictionary built by [fetch_user_data]. *)
Record UserDataset := {
  submissions : list Submission;
  comments : list Comment;
  username : string;
  fetch_time : Z;
  statistics : Statistics
}.

(** What one call of the analyser reads from outside: the clock, the remote
    service, the digest of a value read back from the cache
    ([extract_post_data] returns the text or raises on a value without the
    dataset's shape) and the chat endpoint. *)
Record environment := {
  now : Z;
  reddit : string -> redditor;
  format_data : pyval -> result string;
  complete : string -> result string
}.

Definition py_opt_str (o : option string) : pyval :=
  match o with
  | Some s => PStr s
  | None => PNone
  end.

Definition submission_to_py (s : Submission) : pyval :=
  PDict [("type", PStr "submission");
         ("data", PDict [("title", PStr (title s));
                         ("selftext", PStr (selftext s));
                         ("subreddit", PStr (subreddit s));
                         ("score", PInt (score s));
                         ("upvote_ratio", PFloat (upvote_ratio s));
                         ("created_utc", PFloat (created_utc s));
                         ("permalink", PStr (permalink s));
                         ("num_comments", PInt (num_comments s));
                         ("url", PStr (url s));
                         ("is_self", PBool (is_self s));
                         ("link_flair_text", py_opt_str (link_flair_text s));
                         ("over_18", PBool (over_18 s))])].

Definition comment_to_py (c : Comment) : pyval :=
  PDict [("type", PStr "comment");
         ("data", PDict [("body", PStr (body c));
                         ("subreddit", PStr (c_subreddit c));
                         ("score", PInt (c_score c));
                         ("created_utc", PFloat (c_created_utc c));
                         ("permalink", PStr (c_permalink c));
                         ("is_submitter", PBool (is_submitter c));
                         ("distinguished", py_opt_str (distinguished c));
                         ("parent_id", PStr (parent_id c));
                         ("link_id", PStr (link_id c))])].

(** The top-K of this script: [[:10]]. *)
Definition TOP_K : nat := 10.

(** The merged stream [submissions_data + comments_data], by subreddit. *)
Definition merged_subreddits (subs : list Submission) (coms : list Comment)
  : list string :=
  map subreddit subs ++ map c_subreddit coms.

(** The statistics block of [fetch_user_data]. *)
Definition aggregate (subs : list Submission) (coms : list Comment)
  : Statistics :=
  let subreddit_activity := subreddit_activity (merged_subreddits subs coms) in
  let top_subreddits := top_subreddits_of TOP_K subreddit_activity in
  {| total_submissions := Z.of_nat (length subs);
     total_comments := Z.of_nat (length coms);
     top_subreddits := top_subreddits |}.

Definition build_dataset (user : string) (time : Z)
    (subs : list Submission) (coms : list Comment) : UserDataset :=
  {| submissions := subs;
     comments := coms;
     username := user;
     fetch_time := time;
     statistics := aggregate subs coms |}.

(** The dataset a refetch builds from what the listings deliver. *)
Definition fetched_dataset (env : environment) (user : string) : UserDataset :=
  build_dataset user (now env)
    (delivered (submissions_new (reddit env user)))
    (delivered (comments_new (reddit env user))).

Definition dataset_consistent (d : UserDataset) : Prop :=
  statistics_consistent (length (submissions d)) (length (comments d))
    (total_submissions (statistics d)) (total_comments (statistics d))
    (top_subreddits (statistics d)).

Section Analyser.
Context `{PyLib}.

Definition statistics_to_py (st : Statistics) : pyval :=
  PDict [("total_submissions", PInt (total_submissions st));
         ("total_comments", PInt (total_comments st));
         ("top_subreddits",
          PDict (map (fun sc => (fst sc, PInt (snd sc))) (top_subreddits st)))].

Definition dataset_to_py (d : UserDataset) : pyval :=
  PDict [("submissions", PList (map submission_to_py (submissions d)));
         ("comments", PList (map comment_to_py (comments d)));
         ("username", PStr (username d));
         ("fetch_time", PStr (isoformat (fetch_time d)));
         ("statistics", statistics_to_py (statistics d))].

(** The generator: the items delivered before the listing ended; an
    exception of the listing is printed and ends the sequence. *)
Definition fetch_all_submissions (user : string) (r : redditor)
  : M (list Submission) :=
  emit (RemoteSubmissions user) ;;
  match failure (submissions_new r) with
  | Some e => console_print ("[red]Error fetching submissions: " +:+ e +:+ "[/red]")
  | None => ret tt
  end ;;
  ret (delivered (submissions_new r)).

Definition fetch_all_comments (user : string) (r : redditor)
  : M (list Comment) :=
  emit (RemoteComments user) ;;
  match failure (comments_new r) with
  | Some e => console_print ("[red]Error fetching comments: " +:+ e +:+ "[/red]")
  | None => ret tt
  end ;;
  ret (delivered (comments_new r)).

(** The cache test at the head of [fetch_user_data]: [Some] is the early
    [return cached_data]. *)
Definition check_cache (env : environment) (user : string)
    (force_refresh : bool) : M (option pyval) :=
  if negb force_refresh then
    let* cached_data := load_cached_data user in
    if truthy cached_data then
      let* stamp := lift (getitem cached_data "fetch_time") in
      let* fetched := lift (datetime_fromisoformat stamp) in
      let cache_age := (now env - fetched)%Z in
      if (timedelta_days cache_age <? 1)%Z then
        console_print "[green]Using cached data (less than 24 hours old)[/green]" ;;
        ret (Some cached_data)
      else
        console_print "[yellow]Cache is over 24 hours old. Refreshing...[/yellow]" ;;
        ret None
    else
      console_print "[yellow]No cached data found. Fetching new data...[/yellow]" ;;
      ret None
  else
    console_print "[yellow]Force refresh requested. Fetching new data...[/yellow]" ;;
    ret None.

(** The body of the [try] of [fetch_user_data]. *)
Definition refetch (env : environment) (user : string) : M pyval :=
  let redditor := reddit env user in
  emit (RemoteProbe user) ;;
  match probe_failure redditor with
  | Some e => raise (RemoteError e)
  | None => ret tt
  end ;;
  let* submissions_data := fetch_all_submissions user redditor in
  let* comments_data := fetch_all_comments user redditor in
  let d := build_dataset user (now env) submissions_data comments_data in
  let data := dataset_to_py d in
  save_to_cache user data ;;
  console_print "[green]Successfully fetched and cached data:[/green]" ;;
  console_print ("- Total submissions: " +:+ str_of_Z (Z.of_nat (length submissions_data))) ;;
  console_print ("- Total comments: " +:+ str_of_Z (Z.of_nat (length comments_data))) ;;
  console_print "- Top active subreddits:" ;;
  for_each (top_subreddits (statistics d)) (fun sc =>
    console_print ("  • r/" +:+ fst sc +:+ ": " +:+ str_of_Z (snd sc) +:+ " posts/comments")) ;;
  ret data.

Definition fetch_user_data (env : environment) (user : string)
    (force_refresh : bool) : M pyval :=
  let* cached := check_cache env user force_refresh in
  match cached with
  | Some cached_data => ret cached_data
  | None =>
      try_except (refetch env user)
        (fun e =>
           console_print ("[red]Error fetching data: " +:+ exn_str e +:+ "[/red]") ;;
           ret PNone)
  end.

(** The user message sent to the chat endpoint. *)
Definition prompt (user question : string)
    (chat_history : list ConversationTurn) (formatted_data : string) : string :=
  "Based on this Reddit activity and our previous conversation, please answer " +:+ nl +:+
  "                    the following question about u/" +:+ user +:+ ":" +:+ nl +:+ nl +:+
  "Previous conversation:" +:+ nl +:+ history_context chat_history +:+ nl +:+ nl +:+
  "New Question: " +:+ question +:+ nl +:+ nl +:+
  "User Activity:" +:+ nl +:+ formatted_data +:+ nl +:+ nl +:+
  "Please provide a focused and insightful answer based on the available data and our conversation history.".

Definition analyse_with_claude (env : environment) (user question : string)
    (chat_history : list ConversationTurn) : M string :=
  let* data := fetch_user_data env user false in
  if negb (truthy data) then ret "Unable to fetch user data."
  else
    let* formatted_data := lift (format_data env data) in
    emit (Completion user question) ;;
    lift (complete env (prompt user question chat_history formatted_data)).

Inductive control := Continue | Break.

(** One round of the [while True] loop of [interactive_analysis] on the
    line read from the console.  An exception that leaves the body leaves
    the loop and the session.  The in-memory history is returned; nothing
    after the [append] raises. *)
Definition loop_body (env : environment) (user line : string)
    (chat_history : list ConversationTurn)
  : M (control * list ConversationTurn) :=
  if String.eqb (lower line) "exit" then ret (Break, chat_history)
  else if String.eqb (lower line) "refresh" then
    try_except
      (console_print "[yellow]Force refreshing user data...[/yellow]" ;;
       let* data := fetch_user_data env user true in
       (if truthy data
        then console_print "[green]Data refreshed successfully![/green]"
        else ret tt) ;;
       ret (Continue, chat_history))
      (fun e =>
         console_print ("[red]Error refreshing data: " +:+ exn_str e +:+ "[/red]") ;;
         ret (Continue, chat_history))
  else if String.eqb (lower line) "history" then
    console_print (nl +:+ "[bold]Chat History:[/bold]") ;;
    for_each chat_history (fun entry =>
      console_print ("[cyan]Q: " +:+ question entry +:+ "[/cyan]" +:+ nl +:+ nl +:+
                     "[green]A: " +:+ answer entry +:+ "[/green]")) ;;
    ret (Continue, chat_history)
  else
    try_except
      (console_print "[yellow]Analysing...[/yellow]" ;;
       let* analysis := analyse_with_claude env user line chat_history in
       let chat_history' :=
         chat_history ++ [Turn (isoformat (now env)) line analysis] in
       save_chat_history user chat_history' ;;
       console_print (nl +:+ "[bold]Analysis:[/bold]") ;;
       console_print analysis ;;
       ret (Continue, chat_history'))
      (fun e =>
         console_print ("[red]Error: " +:+ exn_str e +:+ "[/red]") ;;
         ret (Continue, chat_history)).

(** The loop on the lines typed, each with the environment of its round;
    when the lines run out the session is still awaiting a question. *)
Fixpoint session_loop (user : string) (inputs : list (string * environment))
    (chat_history : list ConversationTurn)
  : M (control * list ConversationTurn) :=
  match inputs with
  | [] => ret (Continue, chat_history)
  | (line, env) :: rest =>
      let* r := loop_body env user line chat_history in
      match fst r with
      | Break => ret r
      | Continue => session_loop user rest (snd r)
      end
  end.

End Analyser.
End AnalyzerClaude.


(** ** persona.py *)

Module Persona.

(** [requests.get(url, headers)], [raise_for_status()] and [response.json()]:
    the decoded body or the exception of [requests]. *)
Record environment := {
  http_get : string -> result pyval
}.

Section Analyser.
Context `{PyLib}.

(** The cache test: any cached value that is true is returned. *)
Definition check_cache (user : string) (force_refresh : bool)
  : M (option pyval) :=
  if negb force_refresh then
    let* cached_data := load_cached_data user in
    if truthy cached_data then
      console_print "[green]Using cached data[/green]" ;;
      ret (Some cached_data)
    else ret None
  else ret None.

Definition fetch_user_data (env : environment) (user : string)
    (force_refresh : bool) : M pyval :=
  let* cached := check_cache user force_refresh in
  match cached with
  | Some cached_data => ret cached_data
  | None =>
      console_print "[yellow]Fetching new data from Reddit...[/yellow]" ;;
      let url := "https://www.reddit.com/user/" +:+ user +:+ ".json" in
      try_except_request
        (emit (HttpGet url) ;;
         let* data := lift (http_get env url) in
         save_to_cache user data ;;
         console_print "[green]Data fetched and cached successfully[/green]" ;;
         ret data)
        (fun e =>
           console_print ("[red]Error fetching data: " +:+ exn_str e +:+ "[/red]") ;;
           ret PNone)
  end.

End Analyser.
End Persona.

(** ** The reduced records of the complete-* scripts *)

Module Flat.

Record Submission := {
  title : string;
  selftext : string;
  subreddit : string;
  created_utc : float;
  score : Z;
  num_comments : Z
}.

Record Comment := {
  body : string;
  c_subreddit : string;
  c_score : Z;
  c_created_utc : float
}.

Record Statistics := {
  total_submissions : Z;
  total_comments : Z;
  top_subreddits : list (string * Z)
}.

Record UserDataset := {
  submissions : list Submission;
  comments : list Comment;
  username : string;
  fetch_time : Z;
  statistics : Statistics
}.

Definition submission_to_py (s : Submission) : pyval :=
  PDict [("title", PStr (title s));
         ("selftext", PStr (selftext s));
         ("subreddit", PStr (subreddit s));
         ("created_utc", PFloat (created_utc s));
         ("score", PInt (score s));
         ("num_comments", PInt (num_comments s))].

Definition comment_to_py (c : Comment) : pyval :=
  PDict [("body", PStr (body c));
         ("subreddit", PStr (c_subreddit c));
         ("score", PInt (c_score c));
         ("created_utc", PFloat (c_created_utc c))].

Definition statistics_to_py (st : Statistics) : pyval :=
  PDict [("total_submissions", PInt (total_submissions st));
         ("total_comments", PInt (total_comments st));
         ("top_subreddits",
          PDict (map (fun sc => (fst sc, PInt (snd sc))) (top_subreddits st)))].

Definition dataset_consistent (d : UserDataset) : Prop :=
  statistics_consistent (length (submissions d)) (length (comments d))
    (total_submissions (statistics d)) (total_comments (statistics d))
    (top_subreddits (statistics d)).

Definition dataset_to_py `{PyLib} (d : UserDataset) : pyval :=
  PDict [("submissions", PList (map submission_to_py (submissions d)));
         ("comments", PList (map comment_to_py (comments d)));
         ("username", PStr (username d));
         ("fetch_time", PStr (isoformat (fetch_time d)));
         ("statistics", statistics_to_py (statistics d))].

End Flat.

(** ** reddit-analyser-complete-claude.py *)

Module CompleteClaude.
Import Flat.

Record environment := {
  now : Z;
  reddit : string -> Praw.redditor;
  format_data : pyval -> result string;
  complete : string -> result string
}.

(** The top-K of this script: [[:5]]. *)
Definition TOP_K : nat := 5.

(** [limit=100] of the two listings. *)
Definition FETCH_LIMIT : nat := 100.

(** [selftext[:1000]] and [body[:1000]] of the fetchers. *)
Definition FETCH_CHARS : nat := 1000.

(** [[:500]] of the digest. *)
Definition EXCERPT_CHARS : nat := 500.

(** The default of [max_items]. *)
Definition MAX_ITEMS : Z := 25.

Definition reduce_submission (s : Praw.Submission) : Submission :=
  {| title := Praw.title s;
     selftext := str_take FETCH_CHARS (Praw.selftext s);
     subreddit := Praw.subreddit s;
     created_utc := Praw.created_utc s;
     score := Praw.score s;
     num_comments := Praw.num_comments s |}.

Definition reduce_comment (c : Praw.Comment) : Comment :=
  {| body := str_take FETCH_CHARS (Praw.body c);
     c_subreddit := Praw.c_subreddit c;
     c_score := Praw.c_score c;
     c_created_utc := Praw.c_created_utc c |}.

(** What a listing called with [limit=n] delivers: the first [n] items; its
    failure is met only when it comes before the limit. *)
Definition limited {A} (n : nat) (l : Praw.listing A) : Praw.listing A :=
  if (n <=? length (Praw.delivered l))%nat
  then Praw.Listing (take n (Praw.delivered l)) None
  else l.

Definition aggregate (subs : list Submission) (coms : list Comment)
  : Statistics :=
  let subreddit_activity :=
    subreddit_activity (map subreddit subs ++ map c_subreddit coms) in
  {| total_submissions := Z.of_nat (length subs);
     total_comments := Z.of_nat (length coms);
     top_subreddits := top_subreddits_of TOP_K subreddit_activity |}.

Definition build_dataset (user : string) (time : Z)
    (subs : list Submission) (coms : list Comment) : UserDataset :=
  {| submissions := subs;
     comments := coms;
     username := user;
     fetch_time := time;
     statistics := aggregate subs coms |}.

Section Analyser.
Context `{PyLib}.

Definition fetch_all_submissions (user : string) (r : Praw.redditor)
  : M (list Submission) :=
  let page := limited FETCH_LIMIT (Praw.submissions_new r) in
  emit (RemoteSubmissions user) ;;
  match Praw.failure page with
  | Some e => console_print ("[red]Error fetching submissions: " +:+ e +:+ "[/red]")
  | None => ret tt
  end ;;
  ret (map reduce_submission (Praw.delivered page)).

Definition fetch_all_comments (user : string) (r : Praw.redditor)
  : M (list Comment) :=
  let page := limited FETCH_LIMIT (Praw.comments_new r) in
  emit (RemoteComments user) ;;
  match Praw.failure page with
  | Some e => console_print ("[red]Error fetching comments: " +:+ e +:+ "[/red]")
  | None => ret tt
  end ;;
  ret (map reduce_comment (Praw.delivered page)).

(** The submissions shown: [sorted(..., key=score, reverse=True)[:max_items]]. *)
Definition top_submissions (data : UserDataset) (max_items : Z)
  : list Submission :=
  slice_to max_items (sorted_desc score (submissions data)).

(** The comments shown. *)
Definition top_comments (data : UserDataset) (max_items : Z) : list Comment :=
  slice_to max_items (sorted_desc c_score (comments data)).

(** The text shown of a [selftext] or a [body]. *)
Definition excerpt (text : string) : string :=
  str_take EXCERPT_CHARS text.

(** The parts appended for one submission; the content line only for a
    [selftext] that is not empty. *)
Definition submission_parts (submission : Submission) : list string :=
  (nl +:+ "Date: " +:+ strftime_date (created_utc submission) +:+ nl +:+
   "Title: " +:+ title submission +:+ nl +:+
   "Subreddit: r/" +:+ subreddit submission +:+ nl +:+
   "Score: " +:+ str_of_Z (score submission))
  :: (if negb (String.eqb (selftext submission) "")
      then ["Content: " +:+ excerpt (selftext submission) +:+ "..."]
      else []).

Definition comment_part (comment : Comment) : string :=
  nl +:+ "Date: " +:+ strftime_date (c_created_utc comment) +:+ nl +:+
  "Subreddit: r/" +:+ c_subreddit comment +:+ nl +:+
  "Score: " +:+ str_of_Z (c_score comment) +:+ nl +:+
  "Content: " +:+ excerpt (body comment) +:+ "...".

(** The statistics section: the header and at most five subreddit lines. *)
Definition header_parts (data : UserDataset) : list string :=
  let stats := statistics data in
  ["User Activity Analysis for u/" +:+ username data +:+ nl;
   "OVERVIEW:";
   "Total Submissions: " +:+ str_of_Z (total_submissions stats);
   "Total Comments: " +:+ str_of_Z (total_comments stats);
   nl +:+ "Top Active Subreddits:"]
  ++ map (fun sc => "- r/" +:+ fst sc +:+ ": " +:+ str_of_Z (snd sc) +:+ " posts/comments")
         (take 5 (top_subreddits stats)).

Definition content_parts (data : UserDataset) (max_items : Z) : list string :=
  header_parts data
  ++ [nl +:+ "TOP SUBMISSIONS:"]
  ++ concat (map submission_parts (top_submissions data max_items))
  ++ [nl +:+ "TOP COMMENTS:"]
  ++ map comment_part (top_comments data max_items).

Definition extract_post_data (data : UserDataset) (max_items : Z) : string :=
  join nl (content_parts data max_items).




Definition check_cache (env : environment) (user : string)
    (force_refresh : bool) : M (option pyval) :=
  if negb force_refresh then
    let* cached_data := load_cached_data user in
    if truthy cached_data then
      let* stamp := lift (getitem cached_data "fetch_time") in
      let* fetched := lift (datetime_fromisoformat stamp) in
      let cache_age := (now env - fetched)%Z in
      if (timedelta_days cache_age <? 1)%Z then
        console_print "[green]Using cached data (less than 24 hours old)[/green]" ;;
        ret (Some cached_data)
      else
        console_print "[yellow]Cache is over 24 hours old. Refreshing...[/yellow]" ;;
        ret None
    else
      console_print "[yellow]No cached data found. Fetching new data...[/yellow]" ;;
      ret None
  else
    console_print "[yellow]Force refresh requested. Fetching new data...[/yellow]" ;;
    ret None.

Definition refetch (env : environment) (user : string) : M pyval :=
  let redditor := reddit env user in
  emit (RemoteProbe user) ;;
  match Praw.probe_failure redditor with
  | Some e => raise (RemoteError e)
  | None => ret tt
  end ;;
  let* submissions_data := fetch_all_submissions user redditor in
  let* comments_data := fetch_all_comments user redditor in
  let d := build_dataset user (now env) submissions_data comments_data in
  let data := dataset_to_py d in
  save_to_cache user data ;;
  console_print "[green]Successfully fetched and cached data:[/green]" ;;
  console_print ("- Total submissions: " +:+ str_of_Z (Z.of_nat (length submissions_data))) ;;
  console_print ("- Total comments: " +:+ str_of_Z (Z.of_nat (length comments_data))) ;;
  console_print "- Top active subreddits:" ;;
  for_each (top_subreddits (statistics d)) (fun sc =>
    console_print ("  • r/" +:+ fst sc +:+ ": " +:+ str_of_Z (snd sc) +:+ " posts/comments")) ;;
  ret data.

Definition fetch_user_data (env : environment) (user : string)
    (force_refresh : bool) : M pyval :=
  let* cached := check_cache env user force_refresh in
  match cached with
  | Some cached_data => ret cached_data
  | None =>
      try_except (refetch env user)
        (fun e =>
           console_print ("[red]Error fetching data: " +:+ exn_str e +:+ "[/red]") ;;
           ret PNone)
  end.

(** The API call is guarded; the formatting of the data is not. *)
Definition analyse_with_claude (env : environment) (user question : string)
  : M string :=
  let* data := fetch_user_data env user false in
  if negb (truthy data) then ret "Unable to fetch user data."
  else
    let* formatted_data := lift (format_data env data) in
    try_except
      (emit (Completion user question) ;;
       lift (complete env ("Analyze u/" +:+ user +:+ "'s Reddit activity to answer: "
                           +:+ question +:+ nl +:+ nl +:+ formatted_data)))
      (fun e =>
         console_print ("[red]Error calling Anthropic API: " +:+ exn_str e +:+ "[/red]") ;;
         ret ("Error analysing data: " +:+ exn_str e)).

Inductive control := Continue | Break.

(** One round of the [while True] loop of [interactive_session]. *)
Definition loop_body (env : environment) (user line : string) : M control :=
  if String.eqb (lower line) "exit" then ret Break
  else if String.eqb (lower line) "refresh" then
    let* data := fetch_user_data env user true in
    (if truthy data then console_print "[green]Data refreshed![/green]" else ret tt) ;;
    ret Continue
  else if String.eqb (lower line) "help" then
    console_print ("Commands:" +:+ nl +:+ "exit - End session" +:+ nl +:+
                   "refresh - Update user data" +:+ nl +:+ "help - Show this message") ;;
    ret Continue
  else
    try_except
      (console_print "[yellow]Analyzing...[/yellow]" ;;
       let* analysis := analyse_with_claude env user line in
       console_print analysis ;;
       ret Continue)
      (fun e =>
         console_print ("[red]Error: " +:+ exn_str e +:+ "[/red]") ;;
         ret Continue).

Fixpoint session_loop (user : string) (inputs : list (string * environment))
  : M control :=
  match inputs with
  | [] => ret Continue
  | (line, env) :: rest =>
      let* c := loop_body env user line in
      match c with
      | Break => ret Break
      | Continue => session_loop user rest
      end
  end.


End Analyser.
End CompleteClaude.

(** ** reddit-analyser-complete-groq.py *)

Module CompleteGroq.
Import Flat.

(** The top-K of this script: [[:10]]. *)
Definition TOP_K : nat := 10.

(** [[:50]] of the digest. *)
Definition DIGEST_ITEMS : Z := 50.

(** The two counting loops, submissions first and comments after, on the same
    dictionary. *)
Definition aggregate (subs : list Submission) (coms : list Comment)
  : Statistics :=
  let subreddit_activity :=
    count_into (count_into [] (map subreddit subs)) (map c_subreddit coms) in
  let top_subreddits := top_subreddits_of TOP_K subreddit_activity in
  {| total_submissions := Z.of_nat (length subs);
     total_comments := Z.of_nat (length coms);
     top_subreddits := top_subreddits |}.

Definition build_dataset (user : string) (time : Z)
    (subs : list Submission) (coms : list Comment) : UserDataset :=
  {| submissions := subs;
     comments := coms;
     username := user;
     fetch_time := time;
     statistics := aggregate subs coms |}.

Section Analyser.
Context `{PyLib}.

Definition submission_block (submission : Submission) : string :=
  "Date: " +:+ strftime_date (created_utc submission) +:+ nl +:+
  "Title: " +:+ title submission +:+ nl +:+
  "Content: " +:+ selftext submission +:+ nl +:+
  "Subreddit: r/" +:+ subreddit submission +:+ nl +:+
  "Score: " +:+ str_of_Z (score submission) +:+ nl +:+
  "Comments: " +:+ str_of_Z (num_comments submission) +:+ nl +:+
  "---" +:+ nl +:+ nl.

Definition comment_block (comment : Comment) : string :=
  "Date: " +:+ strftime_date (c_created_utc comment) +:+ nl +:+
  "Subreddit: r/" +:+ c_subreddit comment +:+ nl +:+
  "Content: " +:+ body comment +:+ nl +:+
  "Score: " +:+ str_of_Z (c_score comment) +:+ nl +:+
  "---" +:+ nl +:+ nl.

(** The submissions shown: [data['submissions'][:50]]. *)
Definition shown_submissions (data : UserDataset) : list Submission :=
  slice_to DIGEST_ITEMS (submissions data).

Definition shown_comments (data : UserDataset) : list Comment :=
  slice_to DIGEST_ITEMS (comments data).

Definition extract_post_data (data : UserDataset) : string :=
  let stats := statistics data in
  "User Activity Analysis for u/" +:+ username data +:+ nl +:+ nl +:+
  "OVERVIEW:" +:+ nl +:+
  "Total Submissions: " +:+ str_of_Z (total_submissions stats) +:+ nl +:+
  "Total Comments: " +:+ str_of_Z (total_comments stats) +:+ nl +:+
  nl +:+ "Top Active Subreddits:" +:+ nl +:+
  String.concat ""
    (map (fun sc => "- r/" +:+ fst sc +:+ ": " +:+ str_of_Z (snd sc) +:+ " posts/comments" +:+ nl)
         (top_subreddits stats)) +:+
  nl +:+ "---" +:+ nl +:+ nl +:+
  "RECENT SUBMISSIONS:" +:+ nl +:+ nl +:+
  String.concat "" (map submission_block (shown_submissions data)) +:+
  "RECENT COMMENTS:" +:+ nl +:+ nl +:+
  String.concat "" (map comment_block (shown_comments data)).

End Analyser.
End CompleteGroq.


(** ** A reference instance of the Python library

    A compact JSON printer and parser (floats are written exactly, as
    mantissa [p] binary exponent), ISO timestamps and UTC calendar dates.  The
    model is run on concrete inputs with it. *)

Module RefLib.

Definition dquote : ascii := ascii_of_nat 34.
Definition backslash : ascii := ascii_of_nat 92.

Fixpoint escape (s : string) : string :=
  match s with
  | EmptyString => EmptyString
  | String c s' =>
      if Ascii.eqb c dquote || Ascii.eqb c backslash
      then String backslash (String c (escape s'))
      else String c (escape s')
  end.

Definition quote (s : string) : string :=
  String dquote (escape s +:+ String dquote EmptyString).

Definition float_repr (f : float) : string :=
  match Prim2SF f with
  | S754_zero false => "0p0"
  | S754_zero true => "-0p0"
  | S754_infinity false => "Infinity"
  | S754_infinity true => "-Infinity"
  | S754_nan => "NaN"
  | S754_finite s m e =>
      (if s then "-" else EmptyString) +:+ str_of_Z (Z.pos m) +:+ "p" +:+ str_of_Z e
  end.

Fixpoint dumps (v : pyval) : string :=
  match v with
  | PNone => "null"
  | PBool true => "true"
  | PBool false => "false"
  | PInt n => str_of_Z n
  | PFloat f => float_repr f
  | PStr s => quote s
  | PList l => "[" +:+ join ", " (map dumps l) +:+ "]"
  | PDict d =>
      "{" +:+ join ", " (map (fun kv => let '(k, x) := kv in quote k +:+ ": " +:+ dumps x) d)
      +:+ "}"
  end.

Definition is_ws (c : ascii) : bool :=
  let n := nat_of_ascii c in
  (n =? 32)%nat || (n =? 10)%nat || (n =? 13)%nat || (n =? 9)%nat.

Fixpoint skip_ws (s : string) : string :=
  match s with
  | String c s' => if is_ws c then skip_ws s' else s
  | EmptyString => EmptyString
  end.

Fixpoint strip_prefix (p s : string) : option string :=
  match p, s with
  | EmptyString, _ => Some s
  | String a p', String b s' => if Ascii.eqb a b then strip_prefix p' s' else None
  | _, _ => None
  end.

Definition digit_of (c : ascii) : option Z :=
  let n := nat_of_ascii c in
  if (48 <=? n)%nat && (n <=? 57)%nat then Some (Z.of_nat (n - 48)) else None.

(** The digits at the head of [s], read after [acc]. *)
Fixpoint read_digits (acc : Z) (s : string) : Z * string :=
  match s with
  | String c s' =>
      match digit_of c with
      | Some d => read_digits (10 * acc + d)%Z s'
      | None => (acc, s)
      end
  | EmptyString => (acc, s)
  end.

(** An unsigned number: at least one digit. *)
Definition read_nat (s : string) : option (Z * string) :=
  match s with
  | String c _ =>
      match digit_of c with
      | Some _ => Some (read_digits 0 s)
      | None => None
      end
  | EmptyString => None
  end.

(** An optional sign and an unsigned number. *)
Definition read_signed (s : string) : option (bool * Z * string) :=
  match s with
  | String "-" s' =>
      match read_nat s' with
      | Some (n, r) => Some (true, n, r)
      | None => None
      end
  | _ =>
      match read_nat s with
      | Some (n, r) => Some (false, n, r)
      | None => None
      end
  end.

Definition read_number (s : string) : option (pyval * string) :=
  match read_signed s with
  | Some (neg, n, String "p" r) =>
      match read_signed r with
      | Some (eneg, e, r') =>
          let e := if eneg then (- e)%Z else e in
          let sf := if (n =? 0)%Z then S754_zero neg
                    else S754_finite neg (Z.to_pos n) e in
          Some (PFloat (SF2Prim sf), r')
      | None => None
      end
  | Some (neg, n, r) => Some (PInt (if neg then - n else n)%Z, r)
  | None => None
  end.

(** The text of a string up to its closing quote. *)
Fixpoint read_string (s : string) : option (string * string) :=
  match s with
  | EmptyString => None
  | String c s' =>
      if Ascii.eqb c dquote then Some (EmptyString, s')
      else if Ascii.eqb c backslash then
        match s' with
        | String c' s'' =>
            match read_string s'' with
            | Some (body, r) => Some (String c' body, r)
            | None => None
            end
        | EmptyString => None
        end
      else
        match read_string s' with
        | Some (body, r) => Some (String c body, r)
        | None => None
        end
  end.

Definition read_keyword (s : string) : option (pyval * string) :=
  match strip_prefix "null" s with
  | Some r => Some (PNone, r)
  | None =>
  match strip_prefix "true" s with
  | Some r => Some (PBool true, r)
  | None =>
  match strip_prefix "false" s with
  | Some r => Some (PBool false, r)
  | None =>
  match strip_prefix "NaN" s with
  | Some r => Some (PFloat nan, r)
  | None =>
  match strip_prefix "Infinity" s with
  | Some r => Some (PFloat infinity, r)
  | None =>
  match strip_prefix "-Infinity" s with
  | Some r => Some (PFloat neg_infinity, r)
  | None => None
  end end end end end end.

Fixpoint parse_value (fuel : nat) (s : string) : option (pyval * string) :=
  match fuel with
  | O => None
  | S fuel =>
      match skip_ws s with
      | String c r =>
          if Ascii.eqb c dquote then
            match read_string r with
            | Some (body, r') => Some (PStr body, r')
            | None => None
            end
          else if Ascii.eqb c "[" then
            match skip_ws r with
            | String "]" r' => Some (PList [], r')
            | r' =>
                match parse_items fuel r' with
                | Some (l, r'') => Some (PList l, r'')
                | None => None
                end
            end
          else if Ascii.eqb c "{" then
            match skip_ws r with
            | String "}" r' => Some (PDict [], r')
            | r' =>
                match parse_members fuel r' with
                | Some (d, r'') => Some (PDict d, r'')
                | None => None
                end
            end
          else
            match read_keyword (String c r) with
            | Some x => Some x
            | None => read_number (String c r)
            end
      | EmptyString => None
      end
  end
with parse_items (fuel : nat) (s : string) : option (list pyval * string) :=
  match fuel with
  | O => None
  | S fuel =>
      match parse_value fuel s with
      | Some (v, r) =>
          match skip_ws r with
          | String "," r' =>
              match parse_items fuel r' with
              | Some (l, r'') => Some (v :: l, r'')
              | None => None
              end
          | String "]" r' => Some ([v], r')
          | _ => None
          end
      | None => None
      end
  end
with parse_members (fuel : nat) (s : string)
  : option (list (string * pyval) * string) :=
  match fuel with
  | O => None
  | S fuel =>
      match skip_ws s with
      | String c r =>
          if Ascii.eqb c dquote then
            match read_string r with
            | Some (k, r1) =>
                match skip_ws r1 with
                | String ":" r2 =>
                    match parse_value fuel r2 with
                    | Some (v, r3) =>
                        match skip_ws r3 with
                        | String "," r4 =>
                            match parse_members fuel r4 with
                            | Some (d, r5) => Some ((k, v) :: d, r5)
                            | None => None
                            end
                        | String "}" r4 => Some ([(k, v)], r4)
                        | _ => None
                        end
                    | None => None
                    end
                | _ => None
                end
            | None => None
            end
          else None
      | EmptyString => None
      end
  end.

Definition loads (s : string) : option pyval :=
  match parse_value (S (String.length s)) s with
  | Some (v, r) =>
      match skip_ws r with
      | EmptyString => Some v
      | _ => None
      end
  | None => None
  end.

(** *** Calendar dates *)

(** [n] in decimal on [width] digits. *)
Fixpoint pad (width : nat) (n : Z) : string :=
  match width with
  | O => EmptyString
  | S w => pad w (n / 10) +:+ str_of_Z (n mod 10)
  end.

(** Year, month and day of the day number [z] (day 0 is 1970-01-01). *)
Definition civil_from_days (z : Z) : Z * Z * Z :=
  (let z := z + 719468 in
   let era := z / 146097 in
   let doe := z - era * 146097 in
   let yoe := (doe - doe / 1460 + doe / 36524 - doe / 146096) / 365 in
   let doy := doe - (365 * yoe + yoe / 4 - yoe / 100) in
   let mp := (5 * doy + 2) / 153 in
   let d := doy - (153 * mp + 2) / 5 + 1 in
   let m := if mp <? 10 then mp + 3 else mp - 9 in
   let y := yoe + era * 400 + (if m <=? 2 then 1 else 0) in
   (y, m, d))%Z.

Definition days_from_civil (y m d : Z) : Z :=
  (let y := if m <=? 2 then y - 1 else y in
   let era := y / 400 in
   let yoe := y - era * 400 in
   let doy := (153 * (if 2 <? m then m - 3 else m + 9) + 2) / 5 + d - 1 in
   let doe := yoe * 365 + yoe / 4 - yoe / 100 + doy in
   era * 146097 + doe - 719468)%Z.

Definition date_str (days : Z) : string :=
  let '(y, m, d) := civil_from_days days in
  pad 4 y +:+ "-" +:+ pad 2 m +:+ "-" +:+ pad 2 d.

Definition isoformat (t : Z) : string :=
  (let days := t / MICROSECONDS_PER_DAY in
   let rest := t mod MICROSECONDS_PER_DAY in
   let secs := rest / 1000000 in
   let micros := rest mod 1000000 in
   date_str days +:+ "T" +:+ pad 2 (secs / 3600) +:+ ":" +:+
   pad 2 (secs / 60 mod 60) +:+ ":" +:+ pad 2 (secs mod 60) +:+
   (if micros =? 0 then EmptyString else "." +:+ pad 6 micros))%Z.

(** Exactly [width] digits. *)
Fixpoint read_fixed (width : nat) (acc : Z) (s : string) : option (Z * string) :=
  match width with
  | O => Some (acc, s)
  | S w =>
      match s with
      | String c s' =>
          match digit_of c with
          | Some d => read_fixed w (10 * acc + d)%Z s'
          | None => None
          end
      | EmptyString => None
      end
  end.

Definition expect (c : ascii) (s : string) : option string :=
  match s with
  | String c' s' => if Ascii.eqb c c' then Some s' else None
  | EmptyString => None
  end.

Definition fromisoformat (s : string) : option Z :=
  match read_fixed 4 0 s with
  | Some (y, s) =>
  match expect "-" s with
  | Some s =>
  match read_fixed 2 0 s with
  | Some (m, s) =>
  match expect "-" s with
  | Some s =>
  match read_fixed 2 0 s with
  | Some (d, s) =>
  match expect "T" s with
  | Some s =>
  match read_fixed 2 0 s with
  | Some (hh, s) =>
  match expect ":" s with
  | Some s =>
  match read_fixed 2 0 s with
  | Some (mm, s) =>
  match expect ":" s with
  | Some s =>
  match read_fixed 2 0 s with
  | Some (ss, s) =>
      let micros :=
        match s with
        | EmptyString => Some 0%Z
        | String "." s' =>
            match read_fixed 6 0 s' with
            | Some (us, EmptyString) => Some us
            | _ => None
            end
        | _ => None
        end in
      match micros with
      | Some us =>
          if ((1 <=? m) && (m <=? 12) && (1 <=? d) && (d <=? 31)
              && (hh <? 24) && (mm <? 60) && (ss <? 60))%Z
          then Some (days_from_civil y m d * MICROSECONDS_PER_DAY
                     + ((hh * 60 + mm) * 60 + ss) * 1000000 + us)%Z
          else None
      | None => None
      end
  | None => None end
  | None => None end
  | None => None end
  | None => None end
  | None => None end
  | None => None end
  | None => None end
  | None => None end
  | None => None end
  | None => None end
  | None => None end.

(** The whole seconds of a timestamp. *)
Definition float_floor (f : float) : Z :=
  match Prim2SF f with
  | S754_finite s m e =>
      let v := if s then Z.neg m else Z.pos m in
      if (0 <=? e)%Z then (v * 2 ^ e)%Z else (v / 2 ^ (- e))%Z
  | _ => 0%Z
  end.

Definition strftime_date (t : float) : string :=
  date_str (float_floor t / 86400).

Definition lib : PyLib :=
  Build_PyLib dumps loads isoformat fromisoformat strftime_date.

End RefLib.


(** ** Sample data *)

Module Examples.
Import Praw.

Definition post_rust : Submission :=
  {| title := "Borrow checker question";
     selftext := "Why does this not compile?";
     subreddit := "rust";
     score := 12;
     upvote_ratio := 0.75%float;
     created_utc := 1700000000%float;
     permalink := "/r/rust/comments/1";
     num_comments := 3;
     url := "https://www.reddit.com/r/rust/comments/1";
     is_self := true;
     link_flair_text := None;
     over_18 := false |}.

Definition post_coq : Submission :=
  {| title := "Setoid rewriting";
     selftext := EmptyString;
     subreddit := "coq";
     score := 40;
     upvote_ratio := 0.5%float;
     created_utc := 1700000500%float;
     permalink := "/r/coq/comments/2";
     num_comments := 0;
     url := "https://example.org/setoids";
     is_self := false;
     link_flair_text := Some "help";
     over_18 := false |}.

Definition reply_coq : Comment :=
  {| body := "Try generalizing first.";
     c_subreddit := "coq";
     c_score := -2;
     c_created_utc := 1700000100.5%float;
     c_permalink := "/r/coq/comments/2/x";
     is_submitter := false;
     distinguished := Some "moderator";
     parent_id := "t3_2";
     link_id := "t3_2" |}.

(** 2023-11-14T22:13:20, in microseconds. *)
Definition t0 : Z := 1700000000000000.

Definition HOUR : Z := 3600000000.

(** The dataset cached for [alice] at [t0]. *)
Definition cached_dataset : AnalyzerClaude.UserDataset :=
  AnalyzerClaude.build_dataset "alice" t0 [post_rust; post_coq] [reply_coq].

Definition cached_data : pyval :=
  @AnalyzerClaude.dataset_to_py RefLib.lib cached_dataset.

Definition cached_text : string := RefLib.dumps cached_data.

Definition world_cached : world :=
  World {[ get_cache_path "alice" := cached_text ]} [].

(** A cache file cut short. *)
Definition world_corrupt : world :=
  World {[ get_cache_path "alice" := str_take 40 cached_text ]} [].

Definition redditor_ok (user : string) : redditor :=
  Redditor None (Listing [post_rust; post_coq] None) (Listing [reply_coq] None).

(** The submissions listing fails after its first item. *)
Definition redditor_flaky (user : string) : redditor :=
  Redditor None (Listing [post_coq] (Some "received 503 HTTP response"))
           (Listing [reply_coq] None).

Definition redditor_gone (user : string) : redditor :=
  Redditor (Some "received 404 HTTP response") (Listing [] None) (Listing [] None).

Definition env_at (time : Z) (reddit : string -> redditor)
  : AnalyzerClaude.environment :=
  {| AnalyzerClaude.now := time;
     AnalyzerClaude.reddit := reddit;
     AnalyzerClaude.format_data := fun _ => Ok "digest";
     AnalyzerClaude.complete := fun _ => Ok "answer" |}.



Definition persona_env : Persona.environment :=
  {| Persona.http_get := fun _ => Raise (RequestException "429 Too Many Requests") |}.

End Examples.

(** * Properties *)

(** ** Slices *)





(** ** The stable descending sort *)

Section Sorting.
Context {A : Type} (key : A -> Z).

Lemma insert_desc_perm x l : Permutation (insert_desc key x l) (x :: l).
Proof.
  induction l as [|y l IH]; simpl; [reflexivity|].
  destruct (key y <=? key x)%Z; [reflexivity|].
  rewrite IH. apply perm_swap.
Qed.

Lemma sorted_desc_perm l : Permutation (sorted_desc key l) l.
Proof.
  induction l as [|x l IH]; simpl; [reflexivity|].
  rewrite insert_desc_perm. now constructor.
Qed.





Lemma sorted_desc_length l : length (sorted_desc key l) = length l.
Proof. apply Permutation_length, sorted_desc_perm. Qed.

End Sorting.

(** ** The counting dictionary *)

















Lemma sum_counts_app d1 d2 : sum_counts (d1 ++ d2) = (sum_counts d1 + sum_counts d2)%Z.
Proof. unfold sum_counts. induction d1 as [|kc d1 IH]; simpl; [reflexivity|]. rewrite IH. lia. Qed.





(** ** Running the store *)

Ltac run :=
  cbv [bind ret raise lift emit console_print try_except try_except_request
       open_w write_text read_text os_path_exists json_load json_dump
       load_cached_data save_to_cache load_chat_history save_chat_history].

Lemma world_eta w : World (files w) (trace w) = w.
Proof. now destruct w. Qed.

Section StoreFacts.
Context `{PyLib}.

Lemma load_cached_data_present user w text :
  files w !! get_cache_path user = Some text ->
  load_cached_data user w
  = (match json_loads text with
     | Some v => Ok v
     | None => Raise JSONDecodeError
     end, w).
Proof.
  intros Hf. run. rewrite Hf.
  rewrite bool_decide_eq_true_2 by eauto. rewrite Hf. simpl.
  now destruct (json_loads text).
Qed.


Lemma write_after_open (path text : string) (fs : gmap string string) :
  <[path := default EmptyString (<[path := EmptyString]> fs !! path) +:+ text]>
    (<[path := EmptyString]> fs)
  = <[path := text]> fs.
Proof. rewrite lookup_insert_eq. simpl. apply insert_insert_eq. Qed.


Lemma save_chat_history_run user history w :
  save_chat_history user history w
  = (Ok tt,
     World (<[get_history_path user := json_dumps (PList (map turn_to_py history))]> (files w))
           (trace w)).
Proof. run. simpl. now rewrite write_after_open. Qed.

Lemma for_each_print {A} (l : list A) (f : A -> string) w :
  for_each l (fun x => console_print (f x)) w
  = (Ok tt, World (files w) (trace w ++ map (fun x => Print (f x)) l)).
Proof.
  revert w. induction l as [|x l IH]; intros w; simpl.
  - run. now rewrite app_nil_r, world_eta.
  - run. rewrite IH. simpl. now rewrite <- app_assoc.
Qed.

(** The same with the printing unfolded. *)
Lemma for_each_print_raw {A} (l : list A) (f : A -> string) w :
  for_each l (fun x w0 => (Ok tt, World (files w0) (trace w0 ++ [Print (f x)]))) w
  = (Ok tt, World (files w) (trace w ++ map (fun x => Print (f x)) l)).
Proof. apply (for_each_print l f w). Qed.

End StoreFacts.

(** ** The freshness test *)

Lemma timedelta_days_fresh (delta : Z) :
  (timedelta_days delta <? 1)%Z = true <-> (delta < MICROSECONDS_PER_DAY)%Z.
Proof.
  unfold timedelta_days, MICROSECONDS_PER_DAY. rewrite Z.ltb_lt.
  split; intros Hlt.
  - destruct (Z.lt_ge_cases delta 86400000000) as [|Hge]; [assumption|].
    pose proof (Z.div_le_lower_bound delta 86400000000 1 ltac:(lia) ltac:(lia)). lia.
  - apply Z.div_lt_upper_bound; lia.
Qed.

Lemma timedelta_days_stale (delta : Z) :
  (timedelta_days delta <? 1)%Z = false <-> (MICROSECONDS_PER_DAY <= delta)%Z.
Proof.
  pose proof (timedelta_days_fresh delta) as Hf.
  rewrite Z.ltb_ge. rewrite <- Z.ltb_ge, <- not_true_iff_false, Hf. lia.
Qed.

(** ** reddit-analyzer-claude.py: the cache test and the refetch *)

Module AnalyzerClaudeFacts.
Import Praw AnalyzerClaude.

Section Facts.
Context `{PyLib}.

Lemma check_cache_force env user w :
  check_cache env user true w
  = (Ok None,
     World (files w)
       (trace w ++ [Print "[yellow]Force refresh requested. Fetching new data...[/yellow]"])).
Proof. reflexivity. Qed.


Lemma check_cache_malformed env user w text :
  files w !! get_cache_path user = Some text ->
  json_loads text = None ->
  check_cache env user false w = (Raise JSONDecodeError, w).
Proof.
  intros Hf Hj. unfold check_cache. cbn [negb]. unfold bind at 1.
  now rewrite (load_cached_data_present _ _ _ Hf), Hj.
Qed.

Lemma check_cache_fresh env user w text cached stamp fetched :
  files w !! get_cache_path user = Some text ->
  json_loads text = Some cached ->
  truthy cached = true ->
  getitem cached "fetch_time" = Ok (PStr stamp) ->
  fromisoformat stamp = Some fetched ->
  (now env - fetched < MICROSECONDS_PER_DAY)%Z ->
  check_cache env user false w
  = (Ok (Some cached),
     World (files w)
       (trace w ++ [Print "[green]Using cached data (less than 24 hours old)[/green]"])).
Proof.
  intros Hf Hj Ht Hg Hi Hage. unfold check_cache. cbn [negb]. unfold bind at 1.
  rewrite (load_cached_data_present _ _ _ Hf), Hj, Ht.
  run. rewrite Hg. cbn [datetime_fromisoformat]. rewrite Hi.
  apply timedelta_days_fresh in Hage. now rewrite Hage.
Qed.

Lemma check_cache_stale env user w text cached stamp fetched :
  files w !! get_cache_path user = Some text ->
  json_loads text = Some cached ->
  truthy cached = true ->
  getitem cached "fetch_time" = Ok (PStr stamp) ->
  fromisoformat stamp = Some fetched ->
  (MICROSECONDS_PER_DAY <= now env - fetched)%Z ->
  check_cache env user false w
  = (Ok None,
     World (files w)
       (trace w ++ [Print "[yellow]Cache is over 24 hours old. Refreshing...[/yellow]"])).
Proof.
  intros Hf Hj Ht Hg Hi Hage. unfold check_cache. cbn [negb]. unfold bind at 1.
  rewrite (load_cached_data_present _ _ _ Hf), Hj, Ht.
  run. rewrite Hg. cbn [datetime_fromisoformat]. rewrite Hi.
  apply timedelta_days_stale in Hage. now rewrite Hage.
Qed.

Lemma refetch_probe_failure env user w e :
  probe_failure (reddit env user) = Some e ->
  refetch env user w
  = (Raise (RemoteError e), World (files w) (trace w ++ [RemoteProbe user])).
Proof. intros Hp. unfold refetch. run. now rewrite Hp. Qed.

(** A refetch whose probe succeeds builds the dataset from what the listings
    delivered, overwrites the cache file with it and returns it; a failure of
    a listing is only printed. *)
Lemma refetch_ok env user w :
  probe_failure (reddit env user) = None ->
  let data := dataset_to_py (fetched_dataset env user) in
  exists tr,
    refetch env user w
    = (Ok data,
       World (<[get_cache_path user := json_dumps data]> (files w))
             (trace w ++ RemoteProbe user :: RemoteSubmissions user :: tr)) /\
    (forall e, failure (submissions_new (reddit env user)) = Some e ->
       In (Print ("[red]Error fetching submissions: " +:+ e +:+ "[/red]")) tr) /\
    (forall e, failure (comments_new (reddit env user)) = Some e ->
       In (Print ("[red]Error fetching comments: " +:+ e +:+ "[/red]")) tr).
Proof.
  intros Hp data. unfold refetch, fetch_all_submissions, fetch_all_comments.
  unfold bind at 1. cbn [emit]. unfold bind at 1. rewrite Hp. cbn [ret].
  unfold bind at 1. unfold bind at 1. cbn [emit].
  destruct (failure (submissions_new (reddit env user))) as [es|] eqn:Hs;
  destruct (failure (comments_new (reddit env user))) as [ec|] eqn:Hc;
  run; cbn [files trace]; rewrite write_after_open, for_each_print_raw;
  cbn [files trace]; rewrite <- !app_assoc; cbn [app];
  (eexists; split; [reflexivity|]); split; intros e He; inversion He; subst;
  cbn [In]; auto 10.
Qed.

End Facts.
End AnalyzerClaudeFacts.

Module AnalyzerClaudeRun.
Import Praw AnalyzerClaude AnalyzerClaudeFacts.

Section Facts.
Context `{PyLib}.

Lemma fetch_user_data_cached env user force w cached w1 :
  check_cache env user force w = (Ok (Some cached), w1) ->
  fetch_user_data env user force w = (Ok cached, w1).
Proof. intros Hc. unfold fetch_user_data, bind. now rewrite Hc. Qed.

Lemma fetch_user_data_raises env user force w e w1 :
  check_cache env user force w = (Raise e, w1) ->
  fetch_user_data env user force w = (Raise e, w1).
Proof. intros Hc. unfold fetch_user_data, bind. now rewrite Hc. Qed.

Lemma fetch_user_data_probe_failure env user force w w1 e :
  check_cache env user force w = (Ok None, w1) ->
  probe_failure (reddit env user) = Some e ->
  fetch_user_data env user force w
  = (Ok PNone,
     World (files w1)
       (trace w1 ++ [RemoteProbe user;
                     Print ("[red]Error fetching data: " +:+ e +:+ "[/red]")])).
Proof.
  intros Hc Hp. unfold fetch_user_data. unfold bind at 1. rewrite Hc.
  unfold try_except. rewrite (refetch_probe_failure _ _ _ _ Hp).
  run. cbn [files trace exn_str]. now rewrite <- app_assoc.
Qed.

Lemma fetch_user_data_refetched env user force w w1 :
  check_cache env user force w = (Ok None, w1) ->
  probe_failure (reddit env user) = None ->
  let data := dataset_to_py (fetched_dataset env user) in
  exists tr,
    fetch_user_data env user force w
    = (Ok data,
       World (<[get_cache_path user := json_dumps data]> (files w1))
             (trace w1 ++ RemoteProbe user :: RemoteSubmissions user :: tr)) /\
    (forall e, failure (submissions_new (reddit env user)) = Some e ->
       In (Print ("[red]Error fetching submissions: " +:+ e +:+ "[/red]")) tr) /\
    (forall e, failure (comments_new (reddit env user)) = Some e ->
       In (Print ("[red]Error fetching comments: " +:+ e +:+ "[/red]")) tr).
Proof.
  intros Hc Hp data.
  destruct (refetch_ok env user w1 Hp) as (tr & Hr & Hs & Hcm).
  exists tr. split; [|split; assumption].
  unfold fetch_user_data. unfold bind at 1. rewrite Hc.
  unfold try_except. now rewrite Hr.
Qed.

(** With [force_refresh] set the function never raises. *)
Lemma fetch_user_data_forced_returns env user w :
  exists data w', fetch_user_data env user true w = (Ok data, w').
Proof.
  destruct (probe_failure (reddit env user)) as [e|] eqn:Hp.
  - eexists _, _. eapply fetch_user_data_probe_failure; [apply check_cache_force|exact Hp].
  - destruct (fetch_user_data_refetched env user true w _ (check_cache_force env user w) Hp)
      as (tr & Hr & _).
    eexists _, _. exact Hr.
Qed.

End Facts.
End AnalyzerClaudeRun.

(** ** Claims on the cache *)

(** C1: with [force_refresh] false and a cached dataset on disk, the PRAW
    based analyser ([reddit-analyzer-claude.py]) returns the cached dataset
    unchanged, without touching a file and without any remote call, when its
    age [now - fetched_at] is less than 24 hours; when the age is 24 hours or
    more it goes to the remote service (the probe is issued) and, the probe
    succeeding, overwrites the cache with the refetched dataset and returns
    that one, and returns [None] with the cache untouched when the probe
    fails.  [persona.py] stores no fetch time and returns any cached value
    that is true, whatever its age, without a remote call. *)
Theorem fetch_user_data_cache_reuse `{PyLib}
    (env : AnalyzerClaude.environment) (penv : Persona.environment)
    (user : string) (w : world) (text : string) (cached : pyval) :
  files w !! get_cache_path user = Some text ->
  json_loads text = Some cached ->
  truthy cached = true ->
  (forall stamp fetched,
     getitem cached "fetch_time" = Ok (PStr stamp) ->
     fromisoformat stamp = Some fetched ->
     ((AnalyzerClaude.now env - fetched < MICROSECONDS_PER_DAY)%Z ->
      AnalyzerClaude.fetch_user_data env user false w
      = (Ok cached,
         World (files w)
           (trace w ++ [Print "[green]Using cached data (less than 24 hours old)[/green]"])))
     /\
     ((MICROSECONDS_PER_DAY <= AnalyzerClaude.now env - fetched)%Z ->
      let fresh := AnalyzerClaude.dataset_to_py (AnalyzerClaude.fetched_dataset env user) in
      let r := AnalyzerClaude.fetch_user_data env user false w in
      (exists tr,
         trace (snd r)
         = trace w ++ Print "[yellow]Cache is over 24 hours old. Refreshing...[/yellow]"
                   :: RemoteProbe user :: tr) /\
      match Praw.probe_failure (AnalyzerClaude.reddit env user) with
      | None =>
          fst r = Ok fresh /\
          files (snd r) = <[get_cache_path user := json_dumps fresh]> (files w)
      | Some _ => fst r = Ok PNone /\ files (snd r) = files w
      end))
  /\
  Persona.fetch_user_data penv user false w
  = (Ok cached, World (files w) (trace w ++ [Print "[green]Using cached data[/green]"])).
Proof.
  intros Hf Hj Ht. split.
  - intros stamp fetched Hg Hi. split; intros Hage.
    + apply AnalyzerClaudeRun.fetch_user_data_cached.
      eapply AnalyzerClaudeFacts.check_cache_fresh; eassumption.
    + intros fresh r.
      pose proof (AnalyzerClaudeFacts.check_cache_stale env user w text cached
                    stamp fetched Hf Hj Ht Hg Hi Hage) as Hc.
      subst r. destruct (Praw.probe_failure (AnalyzerClaude.reddit env user)) as [e|] eqn:Hp.
      * rewrite (AnalyzerClaudeRun.fetch_user_data_probe_failure _ _ _ _ _ _ Hc Hp).
        cbn [fst snd files trace]. split; [|split; reflexivity].
        eexists. rewrite <- app_assoc. reflexivity.
      * destruct (AnalyzerClaudeRun.fetch_user_data_refetched _ _ _ _ _ Hc Hp)
          as (tr & Hr & _).
        rewrite Hr. cbn [fst snd files trace]. split; [|split; reflexivity].
        eexists. rewrite <- app_assoc. reflexivity.
  - unfold Persona.fetch_user_data, Persona.check_cache. cbn [negb].
    unfold bind at 1. unfold bind at 1.
    now rewrite (load_cached_data_present _ _ _ Hf), Hj, Ht.
Qed.

Lemma fetch_user_data_cache_reuse_witness :
  @AnalyzerClaude.fetch_user_data RefLib.lib
    (Examples.env_at (Examples.t0 + Examples.HOUR) Examples.redditor_ok)
    "alice" false Examples.world_cached
  = (Ok Examples.cached_data,
     World (files Examples.world_cached)
       [Print "[green]Using cached data (less than 24 hours old)[/green]"]).
Proof.
  refine (proj1 (proj1 (@fetch_user_data_cache_reuse RefLib.lib
                          (Examples.env_at (Examples.t0 + Examples.HOUR) Examples.redditor_ok)
                          Examples.persona_env "alice" Examples.world_cached
                          Examples.cached_text Examples.cached_data _ _ _)
                   "2023-11-14T22:13:20" Examples.t0 _ _) _);
    vm_compute; reflexivity.
Defined.

(** C1, counterexample: 48 hours after the dataset of [alice] was cached,
    [fetch_user_data] of [persona.py] with [force_refresh] false returns that
    dataset from the cache and makes no remote call. *)
Lemma persona_reuses_stale_cache :
  getitem Examples.cached_data "fetch_time" = Ok (PStr "2023-11-14T22:13:20") /\
  RefLib.fromisoformat "2023-11-14T22:13:20" = Some Examples.t0 /\
  (MICROSECONDS_PER_DAY <= (Examples.t0 + 48 * Examples.HOUR) - Examples.t0)%Z /\
  @Persona.fetch_user_data RefLib.lib Examples.persona_env "alice" false
    Examples.world_cached
  = (Ok Examples.cached_data,
     World (files Examples.world_cached) [Print "[green]Using cached data[/green]"]).
Proof.
  repeat apply conj; vm_compute; solve [reflexivity | discriminate].
Qed.

(** C2: when a listing fails during pagination while [fetch_user_data]
    refreshes, the generator prints the error and ends the sequence: the call
    does not fail, it builds the dataset from the items delivered before the
    failure, overwrites the cache entry with it and returns it.  Only a
    failure of the existence probe makes the call return [None]; the error is
    printed and the cache entry is left as it was. *)
Theorem fetch_user_data_remote_failure `{PyLib}
    (env : AnalyzerClaude.environment) (user : string) (w : world) :
  let r := AnalyzerClaude.reddit env user in
  let partial := AnalyzerClaude.dataset_to_py (AnalyzerClaude.fetched_dataset env user) in
  (Praw.probe_failure r = None ->
   exists tr,
     AnalyzerClaude.fetch_user_data env user true w
     = (Ok partial,
        World (<[get_cache_path user := json_dumps partial]> (files w)) (trace w ++ tr)) /\
     (forall e, Praw.failure (Praw.submissions_new r) = Some e ->
        In (Print ("[red]Error fetching submissions: " +:+ e +:+ "[/red]")) tr) /\
     (forall e, Praw.failure (Praw.comments_new r) = Some e ->
        In (Print ("[red]Error fetching comments: " +:+ e +:+ "[/red]")) tr))
  /\
  (forall e, Praw.probe_failure r = Some e ->
     AnalyzerClaude.fetch_user_data env user true w
     = (Ok PNone,
        World (files w)
          (trace w ++ [Print "[yellow]Force refresh requested. Fetching new data...[/yellow]";
                       RemoteProbe user;
                       Print ("[red]Error fetching data: " +:+ e +:+ "[/red]")]))).
Proof.
  intros r partial. split.
  - intros Hp.
    destruct (AnalyzerClaudeRun.fetch_user_data_refetched env user true w _
                (AnalyzerClaudeFacts.check_cache_force env user w) Hp)
      as (tr & Hr & Hs & Hc).
    exists (Print "[yellow]Force refresh requested. Fetching new data...[/yellow]"
              :: RemoteProbe user :: RemoteSubmissions user :: tr).
    split; [|split; intros e He; cbn [In]; do 3 right; auto].
    rewrite Hr. cbn [files trace]. rewrite <- app_assoc. reflexivity.
  - intros e Hp.
    rewrite (AnalyzerClaudeRun.fetch_user_data_probe_failure env user true w _ e
               (AnalyzerClaudeFacts.check_cache_force env user w) Hp).
    cbn [files trace]. now rewrite <- app_assoc.
Qed.

Lemma fetch_user_data_remote_failure_witness :
  @AnalyzerClaude.fetch_user_data RefLib.lib
    (Examples.env_at (Examples.t0 + Examples.HOUR) Examples.redditor_gone)
    "alice" true Examples.world_cached
  = (Ok PNone,
     World (files Examples.world_cached)
       [Print "[yellow]Force refresh requested. Fetching new data...[/yellow]";
        RemoteProbe "alice";
        Print "[red]Error fetching data: received 404 HTTP response[/red]"]).
Proof.
  refine (proj2 (@fetch_user_data_remote_failure RefLib.lib
                   (Examples.env_at (Examples.t0 + Examples.HOUR) Examples.redditor_gone)
                   "alice" Examples.world_cached)
            "received 404 HTTP response" _).
  reflexivity.
Defined.

(** C2, counterexample: [alice] has a cached dataset of two submissions; the
    submissions listing fails after one item during a refresh.  The call
    returns a dataset (no error reaches the caller) and the cache file no
    longer holds the cached dataset but the partial one. *)
Lemma pagination_failure_overwrites_cache :
  let env := Examples.env_at (Examples.t0 + Examples.HOUR) Examples.redditor_flaky in
  let r := @AnalyzerClaude.fetch_user_data RefLib.lib env "alice" true Examples.world_cached in
  let partial := @AnalyzerClaude.dataset_to_py RefLib.lib
                   (AnalyzerClaude.fetched_dataset env "alice") in
  Praw.failure (Praw.submissions_new (Examples.redditor_flaky "alice"))
  = Some "received 503 HTTP response" /\
  files Examples.world_cached !! get_cache_path "alice" = Some Examples.cached_text /\
  fst r = Ok partial /\
  files (snd r) !! get_cache_path "alice" = Some (RefLib.dumps partial) /\
  String.eqb (RefLib.dumps partial) Examples.cached_text = false.
Proof.
  repeat apply conj; vm_compute; reflexivity.
Qed.

(** C4: a cache file that is not valid JSON makes [load_cached_data] raise
    the decoding error; [fetch_user_data] with [force_refresh] false lets it
    through, makes no remote call and leaves the file as it is; the
    interactive loop reports it as a message and goes on.  Only a call with
    [force_refresh] true skips the load, refetches and overwrites the file. *)
Theorem malformed_cache_raises `{PyLib}
    (env : AnalyzerClaude.environment) (user : string) (w : world) (text : string) :
  files w !! get_cache_path user = Some text ->
  json_loads text = None ->
  load_cached_data user w = (Raise JSONDecodeError, w) /\
  AnalyzerClaude.fetch_user_data env user false w = (Raise JSONDecodeError, w) /\
  (forall line chat_history,
     String.eqb (lower line) "exit" = false ->
     String.eqb (lower line) "refresh" = false ->
     String.eqb (lower line) "history" = false ->
     AnalyzerClaude.loop_body env user line chat_history w
     = (Ok (AnalyzerClaude.Continue, chat_history),
        World (files w)
          (trace w ++ [Print "[yellow]Analysing...[/yellow]";
                       Print ("[red]Error: " +:+ exn_str JSONDecodeError +:+ "[/red]")]))) /\
  (Praw.probe_failure (AnalyzerClaude.reddit env user) = None ->
   let fresh := AnalyzerClaude.dataset_to_py (AnalyzerClaude.fetched_dataset env user) in
   exists tr,
     AnalyzerClaude.fetch_user_data env user true w
     = (Ok fresh,
        World (<[get_cache_path user := json_dumps fresh]> (files w)) (trace w ++ tr))).
Proof.
  intros Hf Hj.
  assert (Hfetch : forall w0, files w0 = files w ->
            AnalyzerClaude.fetch_user_data env user false w0 = (Raise JSONDecodeError, w0)).
  { intros w0 Hw0. apply AnalyzerClaudeRun.fetch_user_data_raises.
    eapply AnalyzerClaudeFacts.check_cache_malformed; [|exact Hj]. now rewrite Hw0. }
  split; [|split; [|split]].
  - rewrite (load_cached_data_present _ _ _ Hf). now rewrite Hj.
  - now apply Hfetch.
  - intros line chat_history He Hr Hh.
    unfold AnalyzerClaude.loop_body. rewrite He, Hr, Hh.
    unfold try_except, AnalyzerClaude.analyse_with_claude.
    unfold bind at 1. cbn [console_print emit].
    unfold bind at 1. unfold bind at 1.
    rewrite Hfetch by reflexivity.
    run. cbn [files trace]. now rewrite <- app_assoc.
  - intros Hp fresh.
    destruct (AnalyzerClaudeRun.fetch_user_data_refetched env user true w _
                (AnalyzerClaudeFacts.check_cache_force env user w) Hp)
      as (tr & Hr & _).
    eexists. rewrite Hr. cbn [files trace]. rewrite <- app_assoc. reflexivity.
Qed.

Lemma malformed_cache_raises_witness :
  @AnalyzerClaude.fetch_user_data RefLib.lib
    (Examples.env_at (Examples.t0 + Examples.HOUR) Examples.redditor_ok)
    "alice" false Examples.world_corrupt
  = (Raise JSONDecodeError, Examples.world_corrupt).
Proof.
  refine (proj1 (proj2 (@malformed_cache_raises RefLib.lib
                          (Examples.env_at (Examples.t0 + Examples.HOUR) Examples.redditor_ok)
                          "alice" Examples.world_corrupt
                          (str_take 40 Examples.cached_text) _ _)));
    vm_compute; reflexivity.
Defined.

(** C4, counterexample: the cache file of [alice] holds the first 40
    characters of a dataset.  [load_cached_data] raises instead of returning
    [None], and [fetch_user_data] with [force_refresh] false raises too: its
    trace stays empty (no remote call) and the file is not replaced. *)
Lemma corrupt_cache_is_not_absent :
  RefLib.loads (str_take 40 Examples.cached_text) = None /\
  @load_cached_data RefLib.lib "alice" Examples.world_corrupt
  = (Raise JSONDecodeError, Examples.world_corrupt) /\
  @AnalyzerClaude.fetch_user_data RefLib.lib
    (Examples.env_at (Examples.t0 + Examples.HOUR) Examples.redditor_ok)
    "alice" false Examples.world_corrupt
  = (Raise JSONDecodeError, Examples.world_corrupt) /\
  trace Examples.world_corrupt = [].
Proof.
  repeat apply conj; vm_compute; reflexivity.
Qed.



(** ** Claims on the aggregation *)







(** ** The digest *)












Module CompleteClaudeFacts.
Import Flat CompleteClaude.

Section Facts.
Context `{PyLib}.







End Facts.
End CompleteClaudeFacts.




(** ** Writing the cache file *)






(** ** The interactive session *)

Section Outcomes.
Context {A B : Type}.

Lemma yields_ret (P : A -> Prop) a : P a -> yields P (ret a).
Proof. intros Hp w. now exists a, w. Qed.

Lemma yields_bind (Q : A -> Prop) (P : B -> Prop) (m : M A) (k : A -> M B) :
  yields Q m -> (forall a, yields P (k a)) -> yields P (bind m k).
Proof.
  intros Hm Hk w. destruct (Hm w) as (a & w1 & Hr & _).
  unfold bind. rewrite Hr. apply Hk.
Qed.

Lemma yields_weaken (P Q : A -> Prop) (m : M A) :
  (forall a, P a -> Q a) -> yields P m -> yields Q m.
Proof.
  intros Hpq Hm w. destruct (Hm w) as (a & w1 & Hr & Hp). exists a, w1. auto.
Qed.



Lemma yields_try_except (P : A -> Prop) (m : M A) (h : exn -> M A) :
  may_yield P m -> (forall e, yields P (h e)) -> yields P (try_except m h).
Proof.
  intros Hm Hh w. unfold try_except. specialize (Hm w).
  destruct (m w) as [[a|e] w1]; [now exists a, w1|apply Hh].
Qed.

End Outcomes.

Lemma yields_print {P : unit -> Prop} msg : P tt -> yields P (console_print msg).
Proof. intros Hp w. now eexists _, _. Qed.


Lemma yields_save_chat_history `{PyLib} user history :
  yields (fun _ => True) (save_chat_history user history).
Proof. intros w. rewrite save_chat_history_run. now eexists _, _. Qed.

Module SessionFacts.

Section Facts.
Context `{PyLib}.

Lemma analyzer_fetch_forced env user :
  yields (fun _ => True) (AnalyzerClaude.fetch_user_data env user true).
Proof.
  unfold AnalyzerClaude.fetch_user_data, AnalyzerClaude.check_cache. cbn [negb].
  eapply (yields_bind (fun _ => True)).
  - eapply (yields_bind (fun _ => True)); [now apply yields_print|].
    intros _. now apply yields_ret.
  - intros [cached|]; [now apply yields_ret|].
    apply yields_try_except.
    + intros w. now destruct (AnalyzerClaude.refetch env user w) as [[a|e] w1].
    + intros e. eapply (yields_bind (fun _ => True)); [now apply yields_print|].
      intros _. now apply yields_ret.
Qed.






End Facts.
End SessionFacts.


